(** * Two-coin Expectation-Maximization (notebooks/NB16_CXIII-EM_coin_toss.ipynb)

    A shallow embedding of the notebook's EM code: [compute_likelihood], and
    the part of the code cell from [pA_heads = np.zeros(100)] to the end of
    the [while (improvement > epsilon)] loop, with the E step, the M step and
    the two preallocated history arrays [pA_heads] and [pB_heads].  The
    number of tosses [num_coin_toss], the observed [head_counts], the
    threshold [epsilon] and the two initial guesses are inputs.  The lines
    before the EM part, which draw the experiments and compute the
    complete-data MLE, are modelled with the random draws as inputs; what
    the cell prints is not modelled.

    Numbers.  The notebook computes in numpy's binary64.  Here a float is
    either a finite value, carried as an exact canonical rational, or one of
    the special values [PInf], [NInf], [NaN].  Finite arithmetic is exact
    (no rounding, no overflow, one unsigned zero); the special values follow
    IEEE 754 as numpy applies it to scalars: a division by zero does not
    raise, it yields an infinity or NaN, and every comparison with NaN is
    false.  Head counts are integers (the notebook stores them in a float
    array). *)

From Stdlib Require Import ZArith QArith Qcanon List Bool Lia Lra Psatz Permutation.
Import ListNotations.

(** ** Floats *)

Module Float.

Inductive float : Type :=
| Fin (q : Qc)
| PInf
| NInf
| NaN.

Definition zero : float := Fin (Q2Qc 0).
Definition one : float := Fin (Q2Qc 1).

(** Conversion of a Python int (or an integer-valued array entry). *)
Definition of_Z (z : Z) : float := Fin (Q2Qc (inject_Z z)).

Definition Qc_ltb (a b : Qc) : bool :=
  match Qccompare a b with Lt => true | _ => false end.

Definition Qc_leb (a b : Qc) : bool :=
  match Qccompare a b with Gt => false | _ => true end.

Definition is_nan (x : float) : bool :=
  match x with NaN => true | _ => false end.


Definition fopp (x : float) : float :=
  match x with
  | Fin a => Fin (- a)%Qc
  | PInf => NInf
  | NInf => PInf
  | NaN => NaN
  end.

Definition fadd (x y : float) : float :=
  match x, y with
  | NaN, _ | _, NaN => NaN
  | Fin a, Fin b => Fin (a + b)%Qc
  | PInf, NInf | NInf, PInf => NaN
  | PInf, _ | _, PInf => PInf
  | NInf, _ | _, NInf => NInf
  end.

Definition fsub (x y : float) : float := fadd x (fopp y).

(** The infinity carrying the sign of [a]; [0 * inf] is NaN. *)
Definition signed_inf (a : Qc) (pos : bool) : float :=
  match Qccompare a (Q2Qc 0) with
  | Eq => NaN
  | Gt => if pos then PInf else NInf
  | Lt => if pos then NInf else PInf
  end.

Definition fmul (x y : float) : float :=
  match x, y with
  | NaN, _ | _, NaN => NaN
  | Fin a, Fin b => Fin (a * b)%Qc
  | Fin a, PInf | PInf, Fin a => signed_inf a true
  | Fin a, NInf | NInf, Fin a => signed_inf a false
  | PInf, PInf | NInf, NInf => PInf
  | PInf, NInf | NInf, PInf => NInf
  end.

(** numpy scalar division: [0/0] and [inf/inf] are NaN, [x/0] for a non-zero
    [x] is the infinity of [x]'s sign; nothing is raised. *)
Definition fdiv (x y : float) : float :=
  match x, y with
  | NaN, _ | _, NaN => NaN
  | Fin a, Fin b =>
      if Qc_eq_bool b (Q2Qc 0) then
        match Qccompare a (Q2Qc 0) with
        | Eq => NaN
        | Gt => PInf
        | Lt => NInf
        end
      else Fin (a / b)%Qc
  | Fin _, PInf | Fin _, NInf => zero
  | PInf, Fin b => if Qc_ltb b (Q2Qc 0) then NInf else PInf
  | NInf, Fin b => if Qc_ltb b (Q2Qc 0) then PInf else NInf
  | PInf, PInf | PInf, NInf | NInf, PInf | NInf, NInf => NaN
  end.

Definition fabs (x : float) : float :=
  match x with
  | Fin a => if Qc_ltb a (Q2Qc 0) then Fin (- a)%Qc else Fin a
  | PInf | NInf => PInf
  | NaN => NaN
  end.

(** [x > y] *)
Definition fgt (x y : float) : bool :=
  match x, y with
  | NaN, _ | _, NaN => false
  | Fin a, Fin b => Qc_ltb b a
  | PInf, PInf => false
  | PInf, _ => true
  | _, PInf => false
  | NInf, _ => false
  | Fin _, NInf => true
  end.

(** [x <= y] *)
Definition fle (x y : float) : bool :=
  match x, y with
  | NaN, _ | _, NaN => false
  | Fin a, Fin b => Qc_leb a b
  | _, PInf => true
  | PInf, _ => false
  | NInf, _ => true
  | Fin _, NInf => false
  end.

(** [x ** k] for an integer-valued exponent [k]: [x ** 0] is 1 for every [x],
    NaN included; a negative power of zero is [inf]. *)
Definition fpow (x : float) (k : Z) : float :=
  match k with
  | Z0 => one
  | Zpos p =>
      match x with
      | Fin a => Fin (a ^ Pos.to_nat p)%Qc
      | PInf => PInf
      | NInf => if Z.odd k then NInf else PInf
      | NaN => NaN
      end
  | Zneg p =>
      match x with
      | Fin a =>
          if Qc_eq_bool a (Q2Qc 0) then PInf
          else Fin (/ (a ^ Pos.to_nat p))%Qc
      | PInf | NInf => zero
      | NaN => NaN
      end
  end.

(** Python's builtin [max] over a two-element sequence: the first element is
    kept unless the second compares strictly greater. *)
Definition py_max2 (x y : float) : float := if fgt y x then y else x.

End Float.

Import Float.

(** ** scipy.special.comb(N, k, exact=True)

    The exact binomial coefficient as a Python int; 0 when [k > N], [N < 0]
    or [k < 0]. *)

Fixpoint binomial (n k : nat) : Z :=
  match n, k with
  | _, O => 1
  | O, S _ => 0
  | S n', S k' => binomial n' k' + binomial n' k
  end.

Definition comb (N k : Z) : Z :=
  if (k >? N)%Z || (N <? 0)%Z || (k <? 0)%Z then 0%Z
  else binomial (Z.to_nat N) (Z.to_nat k).

(** ** The likelihood *)

Definition compute_likelihood (obs n : Z) (pheads : float) : float :=
  fmul (fmul (of_Z (comb n obs)) (fpow pheads obs))
       (fpow (fsub one pheads) (n - obs)).

(** ** Exceptions *)

Inductive exn : Type := IndexError | TypeError.

Inductive result (A : Type) : Type :=
| Ok (a : A)
| Raise (e : exn).

Arguments Ok {A} a.
Arguments Raise {A} e.

Definition bind {A B : Type} (c : result A) (k : A -> result B) : result B :=
  match c with
  | Ok a => k a
  | Raise e => Raise e
  end.

Notation "x <- c ;; k" := (bind c (fun x => k))
  (at level 61, c at next level, right associativity).
Notation "' p <- c ;; k" := (bind c (fun x => let p := x in k))
  (at level 61, p pattern, c at next level, right associativity).

(** ** numpy arrays of floats, as lists *)

(** [a[i]] for [i >= 0]. *)
Definition get (a : list float) (i : nat) : result float :=
  match nth_error a i with
  | Some v => Ok v
  | None => Raise IndexError
  end.

Fixpoint update (a : list float) (i : nat) (v : float) : list float :=
  match a, i with
  | [], _ => []
  | _ :: t, O => v :: t
  | h :: t, S i' => h :: update t i' v
  end.

(** [a[i] = v] for [i >= 0]. *)
Definition set (a : list float) (i : nat) (v : float) : result (list float) :=
  if (i <? length a)%nat then Ok (update a i v) else Raise IndexError.

(** A two-column array, one row per experiment. *)
Definition array2 : Type := list (float * float).

(** [np.sum(e, axis=0)[0]] *)
Definition np_sum_col0 (e : array2) : float :=
  fold_left fadd (map fst e) zero.

(** [np.sum(e)], over the entries in row-major order. *)
Definition np_sum (e : array2) : float :=
  fold_left (fun acc r => fadd (fadd acc (fst r)) (snd r)) e zero.

(** The builtin [sum(e)]: int 0 plus the rows, added as arrays; on an array
    with no rows it is the int 0 itself. *)
Definition add_rows (r1 r2 : float * float) : float * float :=
  (fadd (fst r1) (fst r2), fadd (snd r1) (snd r2)).

Definition py_sum_rows (e : array2) : option (float * float) :=
  match e with
  | [] => None
  | _ => Some (fold_left add_rows e (zero, zero))
  end.

(** [sum(e)[0] / sum(sum(e))]; subscripting the int 0 is a TypeError. *)
Definition py_ratio (e : array2) : result float :=
  match py_sum_rows e with
  | None => Raise TypeError
  | Some (c0, c1) => Ok (fdiv c0 (fadd (fadd zero c0) c1))
  end.

(** ** The EM cell *)

Definition history_len : nat := 100.

Record state : Type := mkState {
  pA_heads : list float;
  pB_heads : list float;
  j : nat;
  improvement : float;
  theta : option (float * float)   (* theta_A, theta_B; unbound before the first M step *)
}.

Inductive outcome : Type :=
| Finished (s : state)
| Raised (e : exn)
| OutOfFuel.

Section EM.

Variable num_coin_toss : Z.
Variable head_counts : list Z.
Variable epsilon : float.

(** [tail_counts = num_coin_toss - head_counts] *)
Definition tail_counts : list Z := map (fun h => (num_coin_toss - h)%Z) head_counts.

(** The pairs [(head_counts[i], tail_counts[i])] the [for] loop visits;
    [num_exp] is their number, and every row of [expectation_A] and
    [expectation_B] is assigned. *)
Definition experiments : list (Z * Z) := combine head_counts tail_counts.

(** E step for one experiment. *)
Definition weights (pA pB : float) (eH : Z) : float * float :=
  let lA := compute_likelihood eH num_coin_toss pA in
  let lB := compute_likelihood eH num_coin_toss pB in
  (fdiv lA (fadd lA lB), fdiv lB (fadd lA lB)).

(** [w * np.array([eH, eT])] *)
Definition scale (w : float) (eH eT : Z) : float * float :=
  (fmul w (of_Z eH), fmul w (of_Z eT)).

(** The body of the [for] loop; the history slots are read once per row. *)
Fixpoint e_step (pA_heads pB_heads : list float) (j : nat) (exps : list (Z * Z))
  : result (array2 * array2) :=
  match exps with
  | [] => Ok ([], [])
  | (eH, eT) :: rest =>
      pA <- get pA_heads j ;;
      pB <- get pB_heads j ;;
      let (weightA, weightB) := weights pA pB eH in
      ' (expectation_A, expectation_B) <- e_step pA_heads pB_heads j rest ;;
      Ok (scale weightA eH eT :: expectation_A, scale weightB eH eT :: expectation_B)
  end.

(** M step, as assigned to [theta_A] and [theta_B]. *)
Definition m_step (expectation : array2) : float :=
  fdiv (np_sum_col0 expectation) (np_sum expectation).

Definition em_iteration (s : state) : result state :=
  ' (expectation_A, expectation_B) <- e_step (pA_heads s) (pB_heads s) (j s) experiments ;;
  let theta_A := m_step expectation_A in
  let theta_B := m_step expectation_B in
  vA <- py_ratio expectation_A ;;
  pA' <- set (pA_heads s) (j s + 1) vA ;;
  vB <- py_ratio expectation_B ;;
  pB' <- set (pB_heads s) (j s + 1) vB ;;
  a1 <- get pA' (j s + 1) ;;
  b1 <- get pB' (j s + 1) ;;
  a0 <- get pA' (j s) ;;
  b0 <- get pB' (j s) ;;
  Ok {| pA_heads := pA';
        pB_heads := pB';
        j := j s + 1;
        improvement := py_max2 (fabs (fsub a1 a0)) (fabs (fsub b1 b0));
        theta := Some (theta_A, theta_B) |}.

(** [while (improvement > epsilon): ...], with [fuel] bounding the number of
    iterations the model is allowed to run. *)
Fixpoint em_loop (fuel : nat) (s : state) : outcome :=
  if fgt (improvement s) epsilon then
    match fuel with
    | O => OutOfFuel
    | S fuel' =>
        match em_iteration s with
        | Raise e => Raised e
        | Ok s' => em_loop fuel' s'
        end
    end
  else Finished s.

(** [pA_heads = np.zeros(100); pA_heads[0] = ...; j = 0; improvement = inf] *)
Definition init_state (pA0 pB0 : float) : state :=
  {| pA_heads := update (repeat zero history_len) 0 pA0;
     pB_heads := update (repeat zero history_len) 0 pB0;
     j := 0;
     improvement := PInf;
     theta := None |}.

Definition run_em (fuel : nat) (pA0 pB0 : float) : outcome :=
  em_loop fuel (init_state pA0 pB0).

End EM.

(** The notebook's constants. *)
Definition Qc_of (n : Z) (d : positive) : Qc := Q2Qc (n # d).
Definition default_epsilon : float := Fin (Qc_of 1 1000).
Definition default_pA0 : float := Fin (Qc_of 60 100).
Definition default_pB0 : float := Fin (Qc_of 50 100).

(** Floats as displayed: the rational of a finite value, without the proof
    that it is in lowest terms. *)
Inductive shown : Type :=
| Num (q : Q)
| Inf
| NegInf
| Nan.

Definition show (x : float) : shown :=
  match x with
  | Fin a => Num (this a)
  | PInf => Inf
  | NInf => NegInf
  | NaN => Nan
  end.



(** ** Reference quantities the code is compared with *)


(** The rows the E step builds once the current bias pair has been read. *)
Definition e_rows (num_coin_toss : Z) (pA pB : float) (exps : list (Z * Z))
  : array2 * array2 :=
  (map (fun e => scale (fst (weights num_coin_toss pA pB (fst e))) (fst e) (snd e)) exps,
   map (fun e => scale (snd (weights num_coin_toss pA pB (fst e))) (fst e) (snd e)) exps).

(** Responsibility-weighted counts: the rows [w * [h, n - h]] of an
    expectation array whose weights are the numbers [w], and their sums. *)
Definition qz (z : Z) : Qc := Q2Qc (inject_Z z).






(** The state one iteration leads to when it reads the pair [(a0, b0)] from
    slot [j] and none of its statements raises. *)
Definition next_state (num_coin_toss : Z) (head_counts : list Z) (s : state)
           (a0 b0 : float) : state :=
  let rows := e_rows num_coin_toss a0 b0 (experiments num_coin_toss head_counts) in
  let tA := m_step (fst rows) in
  let tB := m_step (snd rows) in
  {| pA_heads := update (pA_heads s) (j s + 1) tA;
     pB_heads := update (pB_heads s) (j s + 1) tB;
     j := j s + 1;
     improvement := py_max2 (fabs (fsub tA a0)) (fabs (fsub tB b0));
     theta := Some (tA, tB) |}.

(** Both history arrays still have their allocated length and [j] indexes
    a slot. *)
Definition history_ok (s : state) : Prop :=
  length (pA_heads s) = history_len /\
  length (pB_heads s) = history_len /\
  (j s < history_len)%nat.


(** ** Drawing the experiments and the complete-data MLE

    The lines of the cell before the EM part.  The random draws are inputs:
    one pair per experiment, [true] when [np.random.randint(2)] is not 0
    (coin B is selected) and the head count [np.random.binomial] returns. *)

(** [MLE_A] and [MLE_B] start as the Python float [0.0] and become numpy
    floats with the first head count added to them; the two kinds divide by
    an int zero differently. *)
Inductive number : Type :=
| PyFloat (q : Qc)
| Np (x : float).

Definition number_value (m : number) : float :=
  match m with
  | PyFloat q => Fin q
  | Np x => x
  end.

(** [m + head_counts[i]]: adding a numpy float gives a numpy float. *)
Definition add_np (m : number) (x : float) : number :=
  Np (fadd (number_value m) x).

(** [m / d] for a Python int [d]: a Python float raises ZeroDivisionError on
    [d = 0], a numpy float yields an infinity or NaN. *)
Definition div_int (m : number) (d : Z) : option number :=
  match m with
  | PyFloat q => if (d =? 0)%Z then None else Some (PyFloat (q / Q2Qc (inject_Z d))%Qc)
  | Np x => Some (Np (fdiv x (of_Z d)))
  end.

Record drawn : Type := mkDrawn {
  coin_choice : list bool;      (* 0 for A and 1 for B *)
  drawn_heads : list Z;         (* head_counts *)
  MLE_A : number;
  MLE_B : number
}.

(** The [for i in np.arange(num_exp)] loop that fills [coin_choice] and
    [head_counts] and accumulates the head totals. *)
Definition draw_one (acc : drawn) (d : bool * Z) : drawn :=
  let (is_B, h) := d in
  if is_B then
    {| coin_choice := coin_choice acc ++ [true];
       drawn_heads := drawn_heads acc ++ [h];
       MLE_A := MLE_A acc;
       MLE_B := add_np (MLE_B acc) (of_Z h) |}
  else
    {| coin_choice := coin_choice acc ++ [false];
       drawn_heads := drawn_heads acc ++ [h];
       MLE_A := add_np (MLE_A acc) (of_Z h);
       MLE_B := MLE_B acc |}.

Definition generate (draws : list (bool * Z)) : drawn :=
  fold_left draw_one draws
            {| coin_choice := []; drawn_heads := [];
               MLE_A := PyFloat (Q2Qc 0); MLE_B := PyFloat (Q2Qc 0) |}.

(** [np.count_nonzero(coin_choice)] *)
Definition count_nonzero (c : list bool) : Z :=
  Z.of_nat (length (filter (fun b => b) c)).

Inductive cell_exn : Type :=
| ZeroDivisionError
| NameError
| InLoop (e : exn).

(** The two divisions that turn the head totals into proportions;
    [num_exp] is the number of draws. *)
Definition mle (num_coin_toss : Z) (g : drawn) : option (number * number) :=
  let num_exp := Z.of_nat (length (coin_choice g)) in
  match div_int (MLE_A g) ((num_exp - count_nonzero (coin_choice g)) * num_coin_toss) with
  | None => None
  | Some a =>
      match div_int (MLE_B g) (count_nonzero (coin_choice g) * num_coin_toss) with
      | None => None
      | Some b => Some (a, b)
      end
  end.

Inductive cell_outcome : Type :=
| CellDone (mleA mleB : number) (s : state)
| CellRaised (e : cell_exn)
| CellOutOfFuel.

(** The whole code cell: draw, compute the MLE, run EM on the drawn head
    counts, print.  The last [print] reads [theta_A] and [theta_B], which
    are unbound if the loop body never ran. *)
Definition run_cell (num_coin_toss : Z) (draws : list (bool * Z)) (epsilon : float)
           (fuel : nat) (pA0 pB0 : float) : cell_outcome :=
  let g := generate draws in
  match mle num_coin_toss g with
  | None => CellRaised ZeroDivisionError
  | Some (a, b) =>
      match run_em num_coin_toss (drawn_heads g) epsilon fuel pA0 pB0 with
      | OutOfFuel => CellOutOfFuel
      | Raised e => CellRaised (InLoop e)
      | Finished s =>
          match theta s with
          | None => CellRaised NameError
          | Some _ => CellDone a b s
          end
      end
  end.

(** ** Further reference quantities *)



Definition sumZ (l : list Z) : Z := fold_right Z.add 0%Z l.

(** The proportion of heads over all tosses of all experiments. *)
Definition pooled (n : Z) (hs : list Z) : Qc :=
  (Q2Qc (inject_Z (sumZ hs)) / Q2Qc (inject_Z (Z.of_nat (length hs) * n)))%Qc.

(** A state with the two coins exchanged. *)
Definition swap_state (s : state) : state :=
  {| pA_heads := pB_heads s;
     pB_heads := pA_heads s;
     j := j s;
     improvement := improvement s;
     theta := match theta s with
              | Some (a, b) => Some (b, a)
              | None => None
              end |}.





(** The head counts drawn with coin A ([false]) or with coin B ([true]), and
    the value their total has when the loop over the draws is done. *)
Definition heads_of (c : bool) (draws : list (bool * Z)) : list Z :=
  map snd (filter (fun d => Bool.eqb (fst d) c) draws).

Definition total_of (c : bool) (draws : list (bool * Z)) : number :=
  match heads_of c draws with
  | [] => PyFloat (Q2Qc 0)
  | _ => Np (Fin (Q2Qc (inject_Z (sumZ (heads_of c draws)))))
  end.

(** * Properties *)

(** ** Rational arithmetic *)

Local Open Scope Qc_scope.

Lemma Qc_eq_Qeq (x y : Qc) : x = y -> (this x == this y)%Q.
Proof. intros ->. reflexivity. Qed.

(** Moves a goal over canonical rationals to plain rationals, where
    [lra] and [nra] apply. *)
Ltac qc2q :=
  repeat match goal with
  | H : @eq Qc _ _ |- _ => apply Qc_eq_Qeq in H
  | H : ~ @eq Qc _ _ |- _ =>
      let H' := fresh in
      assert (H' := fun E => H (Qc_is_canon _ _ E)); clear H
  | |- @eq Qc _ _ => apply Qc_is_canon
  | |- ~ @eq Qc _ _ => let E := fresh in intro E; apply Qc_eq_Qeq in E
  end;
  unfold Qcle, Qclt, Qcdiv, Qcminus, Qcplus, Qcmult, Qcopp in *;
  cbn [this Q2Qc] in *;
  rewrite ?Qred_correct in *.


Lemma Qc_eq_bool_neq (x y : Qc) : x <> y -> Qc_eq_bool x y = false.
Proof. unfold Qc_eq_bool. destruct (Qc_eq_dec x y); congruence. Qed.

Lemma Qc_ltb_lt (a b : Qc) : Qc_ltb a b = true <-> a < b.
Proof.
  unfold Qc_ltb. rewrite Qclt_alt.
  destruct (a ?= b); split; congruence.
Qed.

Lemma Qc_leb_le (a b : Qc) : Qc_leb a b = true <-> a <= b.
Proof.
  unfold Qc_leb. rewrite Qcle_alt.
  destruct (a ?= b); split; congruence.
Qed.


Lemma Qc_of_Z_le (a b : Z) : (a <= b)%Z -> Q2Qc (inject_Z a) <= Q2Qc (inject_Z b).
Proof. intros H. qc2q. rewrite <- Zle_Qle. exact H. Qed.


(** ** The float model on special values *)

Example float_comparisons :
  fgt PInf NInf = true /\ fgt PInf PInf = false /\ fgt NInf NInf = false /\
  fgt zero PInf = false /\ fgt zero NInf = true /\ fgt NInf zero = false /\
  fgt NaN zero = false /\ fgt zero NaN = false /\ fgt PInf NaN = false /\
  fle PInf PInf = true /\ fle NInf NInf = true /\ fle zero PInf = true /\
  fle PInf zero = false /\ fle NInf zero = true /\ fle zero NInf = false /\
  fle NaN zero = false /\ fle zero NaN = false /\ fle NaN NaN = false.
Proof. repeat split. Qed.

Example float_division :
  fdiv zero zero = NaN /\ fdiv one zero = PInf /\ fdiv (fopp one) zero = NInf /\
  fdiv PInf PInf = NaN /\ show (fdiv one PInf) = Num 0 /\
  fdiv PInf (fopp one) = NInf /\ fdiv NaN one = NaN /\
  show (fdiv one (of_Z 4)) = Num (1 # 4).
Proof. repeat split. Qed.

Example float_products_and_powers :
  fmul zero PInf = NaN /\ fmul (fopp one) PInf = NInf /\ fmul NInf NInf = PInf /\
  fadd PInf NInf = NaN /\ fsub PInf PInf = NaN /\ fabs NInf = PInf /\
  fpow NaN 0 = one /\ fpow zero 0 = one /\ fpow zero (-1) = PInf /\
  show (fpow zero 5) = Num 0 /\ show (fpow (of_Z 2) (-2)) = Num (1 # 4) /\
  fpow NInf 3 = NInf /\ fpow NInf 2 = PInf /\
  py_max2 zero NaN = zero /\ py_max2 NaN zero = NaN /\ show (py_max2 zero one) = Num 1.
Proof. repeat split. Qed.

Example comb_values :
  comb 10 5 = 252%Z /\ comb 10 0 = 1%Z /\ comb 10 10 = 1%Z /\
  comb 10 11 = 0%Z /\ comb 10 (-1) = 0%Z /\ comb (-1) 0 = 0%Z.
Proof. repeat split. Qed.

Example compute_likelihood_values :
  show (compute_likelihood 5 10 (Fin (Qc_of 1 2))) = Num (63 # 256) /\
  show (compute_likelihood 0 10 zero) = Num 1 /\
  show (compute_likelihood 3 10 zero) = Num 0 /\
  show (compute_likelihood 10 10 one) = Num 1 /\
  compute_likelihood (-1) 10 zero = NaN /\
  compute_likelihood 11 10 one = NaN.
Proof. repeat split. Qed.

(** ** Binomial coefficients and the probability mass *)


Lemma Q2Qc_inject_add (a b : Z) :
  Q2Qc (inject_Z (a + b)) = Q2Qc (inject_Z a) + Q2Qc (inject_Z b).
Proof. qc2q. rewrite inject_Z_plus. reflexivity. Qed.





(** ** The likelihood evaluator *)











(** ** The E step *)

Lemma fdiv_finite (a b : Qc) : b <> 0 -> fdiv (Fin a) (Fin b) = Fin (a / b).
Proof. intros H. cbn [fdiv]. rewrite Qc_eq_bool_neq by exact H. reflexivity. Qed.


Lemma Qc_ratio_bounds (x s : Qc) : 0 <= x -> x <= s -> 0 < s -> 0 <= x / s <= 1.
Proof.
  intros H0 H1 Hs.
  assert (Hne : s <> 0) by (apply not_eq_sym, Qclt_not_eq; exact Hs).
  assert (E : (x / s) * s = x) by (field; exact Hne).
  set (w := x / s) in *. clearbody w.
  split; qc2q; nra.
Qed.



Lemma e_step_rows (n : Z) (pAh pBh : list float) (i : nat) (pA pB : float)
      (exps : list (Z * Z)) :
  get pAh i = Ok pA ->
  get pBh i = Ok pB ->
  e_step n pAh pBh i exps = Ok (e_rows n pA pB exps).
Proof.
  intros HA HB. induction exps as [|[eH eT] rest IH].
  - reflexivity.
  - cbn [e_step]. rewrite HA, HB. cbn [bind].
    destruct (weights n pA pB eH) as [wA wB] eqn:E.
    rewrite IH. unfold e_rows. cbn [bind map fst snd].
    rewrite E. reflexivity.
Qed.





(** ** Sums of floats *)

Lemma fadd_comm (x y : float) : fadd x y = fadd y x.
Proof. destruct x, y; cbn [fadd]; try reflexivity. f_equal. ring. Qed.

Lemma fadd_assoc (x y z : float) : fadd (fadd x y) z = fadd x (fadd y z).
Proof. destruct x, y, z; cbn [fadd]; try reflexivity. f_equal. ring. Qed.

Lemma fadd_zero_l (x : float) : fadd zero x = x.
Proof. destruct x; cbn [fadd zero]; try reflexivity. f_equal. ring. Qed.

Lemma fold_add_rows (e : array2) (x y : float) :
  fold_left add_rows e (x, y)
  = (fold_left fadd (map fst e) x, fold_left fadd (map snd e) y).
Proof.
  revert x y. induction e as [|[a b] e IH]; intros x y; cbn [fold_left map].
  - reflexivity.
  - unfold add_rows at 2. cbn [fst snd]. apply IH.
Qed.

Lemma fold_row_major (e : array2) (x y : float) :
  fold_left (fun acc r => fadd (fadd acc (fst r)) (snd r)) e (fadd x y)
  = fadd (fold_left fadd (map fst e) x) (fold_left fadd (map snd e) y).
Proof.
  revert x y. induction e as [|[a b] e IH]; intros x y; cbn [fold_left map fst snd].
  - reflexivity.
  - rewrite <- IH. f_equal.
    rewrite !fadd_assoc. f_equal.
    rewrite <- !fadd_assoc. f_equal. apply fadd_comm.
Qed.

Lemma np_sum_columns (e : array2) :
  np_sum e = fadd (np_sum_col0 e) (fold_left fadd (map snd e) zero).
Proof.
  unfold np_sum, np_sum_col0. rewrite <- fold_row_major.
  rewrite fadd_zero_l. reflexivity.
Qed.

(** The value stored in the history slot is the value bound to [theta]. *)
Lemma py_ratio_m_step (e : array2) : e <> [] -> py_ratio e = Ok (m_step e).
Proof.
  intros Hne. unfold py_ratio, py_sum_rows, m_step.
  destruct e as [|r e]; [congruence|].
  rewrite fold_add_rows. rewrite fadd_zero_l.
  rewrite np_sum_columns. reflexivity.
Qed.




Lemma qz_add (a b : Z) : qz (a + b) = qz a + qz b.
Proof. apply Q2Qc_inject_add. Qed.



Lemma qz_nonneg (z : Z) : (0 <= z)%Z -> 0 <= qz z.
Proof. intros H. apply (Qc_of_Z_le 0 z H). Qed.

(** ** The M step *)








(** ** History arrays *)

Lemma length_update (a : list float) (i : nat) (v : float) :
  length (update a i v) = length a.
Proof.
  revert i. induction a as [|x a IH]; intros [|i]; cbn [update length]; auto.
Qed.

Lemma nth_error_update_eq (a : list float) (i : nat) (v : float) :
  (i < length a)%nat -> nth_error (update a i v) i = Some v.
Proof.
  revert i. induction a as [|x a IH]; intros [|i] H; cbn [update length nth_error] in *;
    try lia; [reflexivity | apply IH; lia].
Qed.

Lemma nth_error_update_neq (a : list float) (i k : nat) (v : float) :
  i <> k -> nth_error (update a i v) k = nth_error a k.
Proof.
  revert i k. induction a as [|x a IH]; intros [|i] [|k] H;
    cbn [update nth_error]; try reflexivity; try congruence.
  apply IH. congruence.
Qed.

Lemma get_update_eq (a : list float) (i : nat) (v : float) :
  (i < length a)%nat -> get (update a i v) i = Ok v.
Proof. intros H. unfold get. rewrite nth_error_update_eq by exact H. reflexivity. Qed.

Lemma get_update_neq (a : list float) (i k : nat) (v : float) :
  i <> k -> get (update a i v) k = get a k.
Proof. intros H. unfold get. rewrite nth_error_update_neq by exact H. reflexivity. Qed.


Lemma set_in_range (a : list float) (i : nat) (v : float) :
  (i < length a)%nat -> set a i v = Ok (update a i v).
Proof.
  intros H. unfold set. apply Nat.ltb_lt in H. rewrite H. reflexivity.
Qed.

Lemma set_out_of_range (a : list float) (i : nat) (v : float) :
  (length a <= i)%nat -> set a i v = Raise IndexError.
Proof.
  intros H. unfold set. apply Nat.ltb_ge in H. rewrite H. reflexivity.
Qed.

(** ** One iteration *)

Lemma experiments_nil (n : Z) (hs : list Z) : experiments n hs = [] <-> hs = [].
Proof.
  unfold experiments, tail_counts. destruct hs; cbn [map combine]; split; congruence.
Qed.

Lemma e_rows_nonempty (n : Z) (a0 b0 : float) (exps : list (Z * Z)) :
  exps <> [] -> fst (e_rows n a0 b0 exps) <> [] /\ snd (e_rows n a0 b0 exps) <> [].
Proof.
  intros H. destruct exps; [congruence|]. unfold e_rows; cbn [map fst snd].
  split; discriminate.
Qed.

Lemma em_iteration_ok (n : Z) (hs : list Z) (s : state) (a0 b0 : float) :
  hs <> [] ->
  (j s + 1 < length (pA_heads s))%nat ->
  (j s + 1 < length (pB_heads s))%nat ->
  get (pA_heads s) (j s) = Ok a0 ->
  get (pB_heads s) (j s) = Ok b0 ->
  em_iteration n hs s = Ok (next_state n hs s a0 b0).
Proof.
  intros Hne HA HB Ga Gb. unfold em_iteration.
  rewrite (e_step_rows n _ _ _ a0 b0 _ Ga Gb).
  assert (Hx : experiments n hs <> []) by (rewrite experiments_nil; exact Hne).
  destruct (e_rows_nonempty n a0 b0 _ Hx) as [NA NB].
  unfold next_state.
  destruct (e_rows n a0 b0 (experiments n hs)) as [eA eB]. cbn [fst snd] in *.
  cbn [bind].
  rewrite (py_ratio_m_step eA NA), (py_ratio_m_step eB NB). cbn [bind].
  rewrite !set_in_range by assumption. cbn [bind].
  rewrite !get_update_eq by assumption. cbn [bind].
  rewrite !get_update_neq by lia. rewrite Ga, Gb. cbn [bind].
  reflexivity.
Qed.

Lemma em_iteration_nil (n : Z) (s : state) : em_iteration n [] s = Raise TypeError.
Proof. reflexivity. Qed.

Lemma em_iteration_inv (n : Z) (hs : list Z) (s s' : state) :
  em_iteration n hs s = Ok s' ->
  hs <> [] /\
  (j s + 1 < length (pA_heads s))%nat /\
  (j s + 1 < length (pB_heads s))%nat /\
  exists a0 b0,
    get (pA_heads s) (j s) = Ok a0 /\
    get (pB_heads s) (j s) = Ok b0 /\
    s' = next_state n hs s a0 b0.
Proof.
  intros H.
  assert (Hne : hs <> []).
  { intros ->. rewrite em_iteration_nil in H. discriminate. }
  assert (Hx : experiments n hs <> []) by (rewrite experiments_nil; exact Hne).
  destruct (get (pA_heads s) (j s)) as [a0|e] eqn:Ga.
  2:{ exfalso. unfold em_iteration in H.
      destruct (experiments n hs) as [|[eH eT] rest]; [congruence|].
      cbn [e_step] in H. rewrite Ga in H. discriminate. }
  destruct (get (pB_heads s) (j s)) as [b0|e] eqn:Gb.
  2:{ exfalso. unfold em_iteration in H.
      destruct (experiments n hs) as [|[eH eT] rest]; [congruence|].
      cbn [e_step] in H. rewrite Ga, Gb in H. discriminate. }
  destruct (e_rows_nonempty n a0 b0 _ Hx) as [NA NB].
  assert (HA : (j s + 1 < length (pA_heads s))%nat).
  { destruct (Nat.lt_ge_cases (j s + 1) (length (pA_heads s))) as [L|L]; [exact L|].
    exfalso. unfold em_iteration in H.
    rewrite (e_step_rows n _ _ _ a0 b0 _ Ga Gb) in H.
    destruct (e_rows n a0 b0 (experiments n hs)) as [eA eB]. cbn [fst snd bind] in *.
    rewrite (py_ratio_m_step eA NA) in H. cbn [bind] in H.
    rewrite set_out_of_range in H by exact L. discriminate. }
  assert (HB : (j s + 1 < length (pB_heads s))%nat).
  { destruct (Nat.lt_ge_cases (j s + 1) (length (pB_heads s))) as [L|L]; [exact L|].
    exfalso. unfold em_iteration in H.
    rewrite (e_step_rows n _ _ _ a0 b0 _ Ga Gb) in H.
    destruct (e_rows n a0 b0 (experiments n hs)) as [eA eB]. cbn [fst snd bind] in *.
    rewrite (py_ratio_m_step eA NA), (py_ratio_m_step eB NB) in H. cbn [bind] in H.
    rewrite set_in_range in H by exact HA. cbn [bind] in H.
    rewrite set_out_of_range in H by exact L. discriminate. }
  rewrite (em_iteration_ok n hs s a0 b0 Hne HA HB Ga Gb) in H.
  repeat split; try assumption.
  exists a0, b0. repeat split. congruence.
Qed.

(** An iteration that finds no free history slot raises IndexError. *)
Lemma em_iteration_full (n : Z) (hs : list Z) (s : state) :
  hs <> [] ->
  (length (pA_heads s) <= j s + 1)%nat ->
  em_iteration n hs s = Raise IndexError.
Proof.
  intros Hne L.
  assert (Hx : experiments n hs <> []) by (rewrite experiments_nil; exact Hne).
  unfold em_iteration.
  destruct (get (pA_heads s) (j s)) as [a0|e] eqn:Ga.
  2:{ destruct (experiments n hs) as [|[eH eT] rest]; [congruence|].
      cbn [e_step]. rewrite Ga. unfold get in Ga.
      destruct (nth_error (pA_heads s) (j s)); inversion Ga. reflexivity. }
  destruct (get (pB_heads s) (j s)) as [b0|e] eqn:Gb.
  2:{ destruct (experiments n hs) as [|[eH eT] rest]; [congruence|].
      cbn [e_step]. rewrite Ga, Gb. unfold get in Gb.
      destruct (nth_error (pB_heads s) (j s)); inversion Gb. reflexivity. }
  rewrite (e_step_rows n _ _ _ a0 b0 _ Ga Gb).
  destruct (e_rows_nonempty n a0 b0 _ Hx) as [NA NB].
  destruct (e_rows n a0 b0 (experiments n hs)) as [eA eB]. cbn [fst snd bind] in *.
  rewrite (py_ratio_m_step eA NA). cbn [bind].
  rewrite set_out_of_range by exact L. reflexivity.
Qed.

Lemma next_state_history (n : Z) (hs : list Z) (s : state) (a0 b0 : float) :
  length (pA_heads (next_state n hs s a0 b0)) = length (pA_heads s) /\
  length (pB_heads (next_state n hs s a0 b0)) = length (pB_heads s) /\
  j (next_state n hs s a0 b0) = (j s + 1)%nat.
Proof.
  unfold next_state. cbn [pA_heads pB_heads j].
  rewrite !length_update. auto.
Qed.

Lemma em_iteration_history (n : Z) (hs : list Z) (s s' : state) :
  history_ok s -> em_iteration n hs s = Ok s' ->
  history_ok s' /\ j s' = (j s + 1)%nat.
Proof.
  intros (LA & LB & Lj) H.
  destruct (em_iteration_inv n hs s s' H) as (_ & HA & HB & a0 & b0 & _ & _ & ->).
  destruct (next_state_history n hs s a0 b0) as (E1 & E2 & E3).
  unfold history_ok. rewrite E1, E2, E3. repeat split; lia.
Qed.

(** ** The loop *)

Lemma init_state_history (pA0 pB0 : float) : history_ok (init_state pA0 pB0).
Proof. unfold history_ok, init_state, history_len. cbn. repeat split; lia. Qed.

Lemma em_loop_unfold (n : Z) (hs : list Z) (eps : float) (fuel : nat) (s : state) :
  em_loop n hs eps (S fuel) s =
  if fgt (improvement s) eps then
    match em_iteration n hs s with
    | Raise e => Raised e
    | Ok s' => em_loop n hs eps fuel s'
    end
  else Finished s.
Proof. reflexivity. Qed.

(** A run that ends normally ends in a state whose [improvement] is not
    greater than [epsilon]; unless no iteration ran, that state was produced
    by an iteration. *)
Lemma em_loop_finished (n : Z) (hs : list Z) (eps : float) (fuel : nat) (s s' : state) :
  em_loop n hs eps fuel s = Finished s' ->
  fgt (improvement s') eps = false /\
  (s' = s \/ exists s0, em_iteration n hs s0 = Ok s' /\ (j s <= j s0)%nat).
Proof.
  revert s. induction fuel as [|fuel IH]; intros s H.
  - cbn [em_loop] in H. destruct (fgt (improvement s) eps) eqn:E; [discriminate|].
    inversion H; subst. auto.
  - rewrite em_loop_unfold in H.
    destruct (fgt (improvement s) eps) eqn:E.
    + destruct (em_iteration n hs s) as [s1|e] eqn:E1; [|discriminate].
      destruct (IH s1 H) as [Hstop [-> | (s0 & Hs0 & Hj)]].
      * split; [exact Hstop|]. right. exists s. split; [exact E1|lia].
      * split; [exact Hstop|]. right. exists s0. split; [exact Hs0|].
        destruct (em_iteration_inv n hs s s1 E1) as (_ & _ & _ & a0 & b0 & _ & _ & ->).
        destruct (next_state_history n hs s a0 b0) as (_ & _ & Ej). lia.
    + inversion H; subst. auto.
Qed.

Lemma em_loop_history (n : Z) (hs : list Z) (eps : float) (fuel : nat) (s s' : state) :
  history_ok s -> em_loop n hs eps fuel s = Finished s' -> history_ok s'.
Proof.
  revert s. induction fuel as [|fuel IH]; intros s Hs H.
  - cbn [em_loop] in H. destruct (fgt (improvement s) eps); [discriminate|].
    inversion H; subst. exact Hs.
  - rewrite em_loop_unfold in H.
    destruct (fgt (improvement s) eps).
    + destruct (em_iteration n hs s) as [s1|e] eqn:E1; [|discriminate].
      apply (IH s1); [|exact H].
      apply (em_iteration_history n hs s s1 Hs E1).
    + inversion H; subst. exact Hs.
Qed.

(** With the history arrays in place, [history_len - j] units of fuel are
    never used up, and more fuel changes nothing. *)
Lemma em_loop_enough_fuel (n : Z) (hs : list Z) (eps : float) (fuel : nat) (s : state) :
  history_ok s ->
  (history_len <= j s + fuel)%nat ->
  em_loop n hs eps fuel s <> OutOfFuel /\
  forall k, em_loop n hs eps (fuel + k) s = em_loop n hs eps fuel s.
Proof.
  revert s. induction fuel as [|fuel IH]; intros s Hs Hf.
  - destruct Hs as (_ & _ & Hj). lia.
  - split.
    + rewrite em_loop_unfold. destruct (fgt (improvement s) eps); [|discriminate].
      destruct (em_iteration n hs s) as [s1|e] eqn:E1; [|discriminate].
      destruct (em_iteration_history n hs s s1 Hs E1) as [Hs1 Ej].
      apply (IH s1 Hs1). lia.
    + intros k. cbn [Nat.add]. rewrite !em_loop_unfold.
      destruct (fgt (improvement s) eps); [|reflexivity].
      destruct (em_iteration n hs s) as [s1|e] eqn:E1; [|reflexivity].
      destruct (em_iteration_history n hs s s1 Hs E1) as [Hs1 Ej].
      apply (IH s1 Hs1). lia.
Qed.

(** ** Comparisons *)









(** The first iteration on the head counts 5, 9, 8, 4, 7 from the initial
    pair (0.6, 0.5) moves the pair to about (0.713, 0.581). *)
Example first_iteration_values :
  match em_iteration 10 [5; 9; 8; 4; 7]%Z (init_state default_pA0 default_pB0) with
  | Ok s =>
      match theta s with
      | Some (a, b) =>
          fle (Fin (Qc_of 713 1000)) a && fle a (Fin (Qc_of 714 1000))
          && fle (Fin (Qc_of 581 1000)) b && fle b (Fin (Qc_of 582 1000))
          && fgt (improvement s) default_epsilon
          && (j s =? 1)%nat
      | None => false
      end
  | Raise _ => false
  end = true.
Proof. vm_compute. reflexivity. Qed.

(** ** The M step inside an iteration *)



(** ** The convergence test *)




(** ** The history arrays bound the loop *)

(** C5 (as amended).  The loop condition has no iteration cap, but every
    iteration writes slot [j+1] of two arrays of 100 entries: whatever the
    input, the run ends within 100 iterations, either normally (with
    [improvement] not greater than [epsilon], after at most 99 iterations)
    or with an exception; the iteration entered at [j = 99] raises
    IndexError. *)
Theorem history_bounds_the_loop (n : Z) (hs : list Z) (eps pA0 pB0 : float) :
  run_em n hs eps history_len pA0 pB0 <> OutOfFuel /\
  (forall k, run_em n hs eps (history_len + k) pA0 pB0
             = run_em n hs eps history_len pA0 pB0) /\
  (forall s, run_em n hs eps history_len pA0 pB0 = Finished s ->
             (j s < history_len)%nat /\ fgt (improvement s) eps = false) /\
  (forall s, hs <> [] -> history_ok s -> j s = (history_len - 1)%nat ->
             em_iteration n hs s = Raise IndexError).
Proof.
  pose proof (init_state_history pA0 pB0) as H0.
  destruct (em_loop_enough_fuel n hs eps history_len (init_state pA0 pB0) H0)
    as [Hno Hmore]; [cbn; lia|].
  split; [exact Hno|]. split; [exact Hmore|]. split.
  - intros s Hs. split.
    + apply (em_loop_history n hs eps _ _ s H0) in Hs. apply Hs.
    + apply (em_loop_finished n hs eps _ _ s Hs).
  - intros s Hne (LA & _ & _) Hj. apply em_iteration_full; [exact Hne|].
    rewrite LA, Hj. unfold history_len. lia.
Qed.

Lemma history_bounds_the_loop_witness :
  let s := {| pA_heads := repeat zero history_len;
              pB_heads := repeat zero history_len;
              j := 99;
              improvement := PInf;
              theta := None |} in
  em_iteration 10 [5]%Z s = Raise IndexError /\
  run_em 10 [5]%Z default_epsilon history_len zero one <> OutOfFuel.
Proof.
  intros s.
  destruct (history_bounds_the_loop 10 [5]%Z default_epsilon zero one)
    as (H1 & _ & _ & H4).
  split; [|exact H1].
  apply H4.
  - discriminate.
  - unfold history_ok, history_len. cbn. lia.
  - reflexivity.
Defined.

(** With a negative [epsilon] the improvement never falls to [epsilon] or
    below, and the run ends with IndexError in its 100th iteration. *)
Lemma never_converging_run_raises :
  run_em 10 [5]%Z (Fin (Qc_of (-1) 1)) 100 (Fin (Qc_of 1 2)) (Fin (Qc_of 1 2))
  = Raised IndexError /\
  run_em 10 [5]%Z (Fin (Qc_of (-1) 1)) 99 (Fin (Qc_of 1 2)) (Fin (Qc_of 1 2))
  = OutOfFuel /\
  run_em 10 [5]%Z (Fin (Qc_of (-1) 1)) 1000 (Fin (Qc_of 1 2)) (Fin (Qc_of 1 2))
  = Raised IndexError.
Proof. repeat split; vm_compute; reflexivity. Qed.

(** ** The first iteration *)




(** With no experiment the first iteration does not complete: [sum] of an
    array without rows is the int 0, and subscripting it raises. *)
Lemma empty_experiments_raise :
  run_em 10 [] default_epsilon history_len default_pA0 default_pB0 = Raised TypeError.
Proof. reflexivity. Qed.

(** ** Zero responsibility mass *)





(** ** Cycles after the stopping test has passed *)





(** * Further properties *)

(** ** The likelihood as a probability mass *)













(** ** Interior bias pairs *)



Lemma qz_pos (z : Z) : (0 < z)%Z -> 0 < qz z.
Proof.
  intros H. unfold qz. qc2q. change 0%Q with (inject_Z 0).
  rewrite <- Zlt_Qlt. exact H.
Qed.
















(** ** NaN in the loop *)












Lemma fabs_sign (x : float) : is_nan (fabs x) = true \/ fle zero (fabs x) = true.
Proof.
  destruct x as [a| | |]; cbn [fabs]; auto.
  destruct (Qc_ltb a 0) eqn:E; right; cbn [fle zero]; apply Qc_leb_le.
  - apply Qc_ltb_lt in E. qc2q. lra.
  - apply Qcnot_lt_le. intros H. apply Qc_ltb_lt in H. congruence.
Qed.

Lemma py_max2_sign (x y : float) :
  (is_nan x = true \/ fle zero x = true) ->
  (is_nan y = true \/ fle zero y = true) ->
  is_nan (py_max2 x y) = true \/ fle zero (py_max2 x y) = true.
Proof. intros Hx Hy. unfold py_max2. destruct (fgt y x); assumption. Qed.

Lemma fle_zero_not_gt (x eps : float) :
  fle zero x = true -> fgt zero eps = true -> fgt x eps = true.
Proof.
  destruct x as [a| | |], eps as [e| | |]; cbn [fle fgt zero]; try discriminate; auto.
  rewrite Qc_leb_le, !Qc_ltb_lt. intros H1 H2. qc2q. lra.
Qed.

(** X5.  After every iteration [improvement] is NaN or not negative.  So
    with a negative [epsilon] the test [improvement > epsilon] can only fail
    on a NaN: a run with a negative [epsilon] that ends normally ends with a
    NaN improvement. *)
Theorem improvement_never_negative (n : Z) (hs : list Z) (eps : float) :
  (forall s s', em_iteration n hs s = Ok s' ->
     is_nan (improvement s') = true \/ fle zero (improvement s') = true) /\
  (fgt zero eps = true ->
   forall fuel pA0 pB0 s,
     run_em n hs eps fuel pA0 pB0 = Finished s ->
     is_nan (improvement s) = true /\ (1 <= j s)%nat).
Proof.
  assert (Step : forall s s', em_iteration n hs s = Ok s' ->
            is_nan (improvement s') = true \/ fle zero (improvement s') = true).
  { intros s s' H.
    destruct (em_iteration_inv n hs s s' H) as (_ & _ & _ & a0 & b0 & _ & _ & ->).
    unfold next_state. cbn [improvement]. apply py_max2_sign; apply fabs_sign. }
  split; [exact Step|].
  intros Heps fuel pA0 pB0 s Hs. unfold run_em in Hs.
  destruct (em_loop_finished n hs eps fuel _ s Hs) as [Hstop [-> | (s0 & Hs0 & _)]].
  - exfalso. cbn [improvement init_state] in Hstop.
    destruct eps; cbn in Heps, Hstop; discriminate.
  - split.
    + destruct (Step s0 s Hs0) as [Hn | Hp]; [exact Hn|].
      rewrite (fle_zero_not_gt _ eps Hp Heps) in Hstop. discriminate.
    + destruct (em_iteration_inv n hs s0 s Hs0) as (_ & _ & _ & x & y & _ & _ & ->).
      destruct (next_state_history n hs s0 x y) as (_ & _ & Ej). lia.
Qed.

Lemma improvement_never_negative_witness :
  exists s : state,
    run_em 10 [5]%Z (Fin (Qc_of (-1) 1)) history_len zero one = Finished s /\
    is_nan (improvement s) = true /\
    (1 <= j s)%nat.
Proof.
  destruct (run_em 10 [5]%Z (Fin (Qc_of (-1) 1)) history_len zero one) as [s|e|] eqn:E.
  - exists s. split; [reflexivity|].
    apply (proj2 (improvement_never_negative 10 [5]%Z (Fin (Qc_of (-1) 1)))
                 eq_refl history_len zero one s E).
  - exfalso. vm_compute in E. discriminate.
  - exfalso. vm_compute in E. discriminate.
Defined.

(** X6.  The convergence test treats the two coins differently on NaN.  A
    NaN in the new bias of coin A makes [improvement] NaN and stops the
    loop at once; a NaN in the new bias of coin B alone is skipped by [max]:
    [improvement] is then the change of coin A, and the loop goes on exactly
    when that change exceeds [epsilon]. *)
Theorem nan_is_judged_by_coin (n : Z) (hs : list Z) (eps : float)
        (s s' : state) (a0 b0 a1 b1 : float) :
  em_iteration n hs s = Ok s' ->
  get (pA_heads s) (j s) = Ok a0 ->
  get (pB_heads s) (j s) = Ok b0 ->
  theta s' = Some (a1, b1) ->
  (a1 = NaN ->
   improvement s' = NaN /\ forall fuel, em_loop n hs eps fuel s' = Finished s') /\
  (b1 = NaN ->
   improvement s' = fabs (fsub a1 a0) /\
   (fgt (fabs (fsub a1 a0)) eps = true ->
    forall fuel, em_loop n hs eps (S fuel) s' =
                 match em_iteration n hs s' with
                 | Raise e => Raised e
                 | Ok s'' => em_loop n hs eps fuel s''
                 end)).
Proof.
  intros H Ga Gb T.
  destruct (em_iteration_inv n hs s s' H) as (_ & _ & _ & x & y & Gx & Gy & ->).
  assert (x = a0) by congruence. assert (y = b0) by congruence. subst x y.
  clear H Gx Gy.
  assert (EI : improvement (next_state n hs s a0 b0)
               = py_max2 (fabs (fsub a1 a0)) (fabs (fsub b1 b0))).
  { unfold next_state in T |- *. cbn [improvement theta] in T |- *.
    inversion T. reflexivity. }
  clear T. set (s' := next_state n hs s a0 b0) in *. clearbody s'.
  split.
  - intros ->. change (fabs (fsub NaN a0)) with NaN in EI.
    assert (EN : improvement s' = NaN).
    { rewrite EI. unfold py_max2. destruct (fabs (fsub b1 b0)); reflexivity. }
    split; [exact EN|].
    intros fuel. destruct fuel; cbn [em_loop]; rewrite EN; reflexivity.
  - intros ->. change (fabs (fsub NaN b0)) with NaN in EI.
    change (py_max2 (fabs (fsub a1 a0)) NaN) with (fabs (fsub a1 a0)) in EI.
    split; [exact EI|].
    intros Hgt fuel. rewrite em_loop_unfold, EI, Hgt. reflexivity.
Qed.

Lemma nan_is_judged_by_coin_witness :
  let s := init_state (Fin (Qc_of 1 2)) zero in
  let s' := next_state 10 [5; 9]%Z s (Fin (Qc_of 1 2)) zero in
  let a1 := m_step (fst (e_rows 10 (Fin (Qc_of 1 2)) zero (experiments 10 [5; 9]%Z))) in
  show a1 = Num (7 # 10) /\
  theta s' = Some (a1, NaN) /\
  improvement s' = fabs (fsub a1 (Fin (Qc_of 1 2))) /\
  show (improvement s') = Num (1 # 5).
Proof.
  intros s s' a1.
  assert (T : theta s' = Some (a1, NaN)) by (vm_compute; reflexivity).
  destruct (nan_is_judged_by_coin 10 [5; 9]%Z default_epsilon s s'
              (Fin (Qc_of 1 2)) zero a1 NaN) as [_ HB].
  - vm_compute. reflexivity.
  - reflexivity.
  - reflexivity.
  - exact T.
  - destruct (HB eq_refl) as [EI _].
    split; [vm_compute; reflexivity|].
    split; [exact T|].
    split; [exact EI|].
    vm_compute. reflexivity.
Defined.

(** ** The history arrays as a trace *)







(** ** Exchanging the two coins *)






Lemma history_ok_swap (s : state) : history_ok s -> history_ok (swap_state s).
Proof. intros (LA & LB & Lj). unfold history_ok, swap_state. cbn. auto. Qed.




(** ** Equal initial guesses *)








Lemma sumZ_bounds (n : Z) (hs : list Z) :
  Forall (fun h => (0 <= h <= n)%Z) hs ->
  (0 <= sumZ hs <= Z.of_nat (length hs) * n)%Z.
Proof.
  induction 1 as [|h hs Hh _ IH]; cbn [sumZ fold_right length]; [lia|].
  unfold sumZ in IH. lia.
Qed.






(** ** Drawing the experiments and the MLE *)

Lemma generate_snoc (l : list (bool * Z)) (d : bool * Z) :
  generate (l ++ [d]) = draw_one (generate l) d.
Proof. unfold generate. rewrite fold_left_app. reflexivity. Qed.

Lemma heads_of_snoc_same (c : bool) (l : list (bool * Z)) (h : Z) :
  heads_of c (l ++ [(c, h)]) = heads_of c l ++ [h].
Proof.
  unfold heads_of. rewrite filter_app, map_app. cbn [filter fst].
  rewrite Bool.eqb_reflx. reflexivity.
Qed.

Lemma heads_of_snoc_other (c : bool) (l : list (bool * Z)) (h : Z) :
  heads_of c (l ++ [(negb c, h)]) = heads_of c l.
Proof.
  unfold heads_of. rewrite filter_app, map_app. cbn [filter fst].
  replace (Bool.eqb (negb c) c) with false by (destruct c; reflexivity).
  cbn [map]. apply app_nil_r.
Qed.

Lemma sumZ_snoc (l : list Z) (h : Z) : sumZ (l ++ [h]) = (sumZ l + h)%Z.
Proof.
  unfold sumZ. induction l as [|x l IH]; cbn [app fold_right]; [lia|].
  rewrite IH. lia.
Qed.

Lemma total_of_snoc_same (c : bool) (l : list (bool * Z)) (h : Z) :
  add_np (total_of c l) (of_Z h) = total_of c (l ++ [(c, h)]).
Proof.
  unfold total_of, add_np. rewrite heads_of_snoc_same.
  destruct (heads_of c l) as [|x t] eqn:E.
  - cbn [app number_value fadd of_Z]. do 2 f_equal.
    fold (qz h). fold (qz (sumZ [h])). cbn [sumZ fold_right].
    rewrite Z.add_0_r. ring.
  - replace ((x :: t) ++ [h]) with (x :: (t ++ [h])) by reflexivity.
    cbn [number_value fadd of_Z]. do 2 f_equal.
    fold (qz h). fold (qz (sumZ (x :: t))). fold (qz (sumZ (x :: (t ++ [h])))).
    change (x :: (t ++ [h])) with ((x :: t) ++ [h]).
    rewrite sumZ_snoc, qz_add. reflexivity.
Qed.

Lemma total_of_snoc_other (c : bool) (l : list (bool * Z)) (h : Z) :
  total_of c (l ++ [(negb c, h)]) = total_of c l.
Proof. unfold total_of. rewrite heads_of_snoc_other. reflexivity. Qed.

(** What the loop over the draws leaves behind. *)
Lemma generate_spec (draws : list (bool * Z)) :
  generate draws =
  {| coin_choice := map fst draws;
     drawn_heads := map snd draws;
     MLE_A := total_of false draws;
     MLE_B := total_of true draws |}.
Proof.
  induction draws as [|[c h] l IH] using rev_ind; [reflexivity|].
  rewrite generate_snoc, IH. unfold draw_one.
  cbn [coin_choice drawn_heads MLE_A MLE_B].
  rewrite !map_app. cbn [map fst snd].
  destruct c.
  - rewrite total_of_snoc_same.
    pose proof (total_of_snoc_other false l h) as X. cbn [negb] in X.
    rewrite X. reflexivity.
  - rewrite total_of_snoc_same.
    pose proof (total_of_snoc_other true l h) as X. cbn [negb] in X.
    rewrite X. reflexivity.
Qed.

Lemma count_nonzero_heads (draws : list (bool * Z)) :
  count_nonzero (map fst draws) = Z.of_nat (length (heads_of true draws)).
Proof.
  unfold count_nonzero, heads_of. f_equal. rewrite length_map.
  induction draws as [|[c h] l IH]; [reflexivity|].
  cbn [map filter fst]. destruct c; cbn [Bool.eqb length]; rewrite IH; reflexivity.
Qed.

Lemma count_split (draws : list (bool * Z)) :
  length draws = (length (heads_of false draws) + length (heads_of true draws))%nat.
Proof.
  unfold heads_of. rewrite !length_map.
  induction draws as [|[c h] l IH]; [reflexivity|].
  cbn [filter fst length]. destruct c; cbn [Bool.eqb length]; lia.
Qed.

Lemma heads_of_nil_iff (c : bool) (draws : list (bool * Z)) :
  heads_of c draws = [] <-> Forall (fun d => fst d = negb c) draws.
Proof.
  unfold heads_of. induction draws as [|[x h] l IH]; cbn [filter map fst].
  - split; auto.
  - destruct (Bool.eqb x c) eqn:E; cbn [map].
    + split; [discriminate|]. intros H. inversion H as [|? ? Hx _]; subst.
      cbn [fst] in Hx. subst. destruct c; discriminate.
    + rewrite IH. split.
      * intros H. constructor; [|exact H]. cbn [fst]. destruct x, c; try reflexivity; discriminate.
      * intros H. inversion H; assumption.
Qed.

Lemma mle_of_generate (n : Z) (draws : list (bool * Z)) :
  mle n (generate draws) =
  match div_int (total_of false draws) (Z.of_nat (length (heads_of false draws)) * n) with
  | None => None
  | Some a =>
      match div_int (total_of true draws) (Z.of_nat (length (heads_of true draws)) * n) with
      | None => None
      | Some b => Some (a, b)
      end
  end.
Proof.
  rewrite generate_spec. unfold mle. cbn [coin_choice MLE_A MLE_B].
  rewrite count_nonzero_heads, length_map, (count_split draws).
  replace (Z.of_nat (length (heads_of false draws) + length (heads_of true draws))
           - Z.of_nat (length (heads_of true draws)))%Z
    with (Z.of_nat (length (heads_of false draws))) by lia.
  reflexivity.
Qed.

Lemma div_total_none (c : bool) (n : Z) (draws : list (bool * Z)) :
  div_int (total_of c draws) (Z.of_nat (length (heads_of c draws)) * n) = None
  <-> heads_of c draws = [].
Proof.
  unfold total_of. destruct (heads_of c draws) as [|x t]; cbn [div_int length].
  - rewrite Z.mul_0_l. cbn. split; auto.
  - split; discriminate.
Qed.

Lemma mle_raises_iff_missing_aux (n : Z) (draws : list (bool * Z)) :
  mle n (generate draws) = None <->
  Forall (fun d => fst d = true) draws \/ Forall (fun d => fst d = false) draws.
Proof.
  rewrite mle_of_generate.
  rewrite <- (heads_of_nil_iff false draws), <- (heads_of_nil_iff true draws).
  destruct (div_int (total_of false draws) _) as [a|] eqn:EA.
  - destruct (div_int (total_of true draws) _) as [b|] eqn:EB.
    + split; [discriminate|]. intros [H | H].
      * apply (div_total_none false n) in H. congruence.
      * apply (div_total_none true n) in H. congruence.
    + split; [|reflexivity]. intros _. right. apply (div_total_none true n). exact EB.
  - split; [|reflexivity]. intros _. left. apply (div_total_none false n). exact EA.
Qed.

(** X10.  The complete-data MLE raises ZeroDivisionError exactly when one of
    the two coins was never selected (in particular when there is no
    experiment, or only one), whatever the number of tosses and the head
    counts are. *)
Theorem mle_raises_iff_a_coin_is_missing (n : Z) (draws : list (bool * Z)) :
  mle n (generate draws) = None <->
  Forall (fun d => fst d = true) draws \/ Forall (fun d => fst d = false) draws.
Proof. apply mle_raises_iff_missing_aux. Qed.

Lemma pooled_bounds (n : Z) (hs : list Z) :
  Forall (fun h => (0 <= h <= n)%Z) hs -> hs <> [] -> (0 < n)%Z ->
  0 <= pooled n hs <= 1.
Proof.
  intros Hv Hne Hn. pose proof (sumZ_bounds n hs Hv) as [B0 B1].
  unfold pooled. fold (qz (sumZ hs)). fold (qz (Z.of_nat (length hs) * n)).
  apply Qc_ratio_bounds.
  - apply qz_nonneg. exact B0.
  - apply Qc_of_Z_le. exact B1.
  - apply qz_pos. destruct hs; [congruence|]. cbn [length]. lia.
Qed.

Lemma div_total_some (c : bool) (n : Z) (draws : list (bool * Z)) :
  heads_of c draws <> [] -> (0 < n)%Z ->
  div_int (total_of c draws) (Z.of_nat (length (heads_of c draws)) * n)
  = Some (Np (Fin (pooled n (heads_of c draws)))).
Proof.
  intros Hne Hn. unfold total_of.
  destruct (heads_of c draws) as [|x t] eqn:E; [congruence|].
  cbn [div_int]. unfold of_Z. rewrite fdiv_finite; [reflexivity|].
  apply not_eq_sym, Qclt_not_eq. apply (qz_pos (Z.of_nat (length (x :: t)) * n)).
  cbn [length]. lia.
Qed.

(** X11.  When both coins were selected at least once and [n > 0], the MLE
    of each coin is the proportion of heads among the tosses of the
    experiments that used that coin; with head counts within [0, n] both
    values lie in [0,1]. *)
Theorem mle_is_the_proportion_per_coin (n : Z) (draws : list (bool * Z)) :
  (0 < n)%Z ->
  Exists (fun d => fst d = false) draws ->
  Exists (fun d => fst d = true) draws ->
  mle n (generate draws)
  = Some (Np (Fin (pooled n (heads_of false draws))),
          Np (Fin (pooled n (heads_of true draws)))) /\
  (Forall (fun d => (0 <= snd d <= n)%Z) draws ->
   0 <= pooled n (heads_of false draws) <= 1 /\
   0 <= pooled n (heads_of true draws) <= 1).
Proof.
  intros Hn EA EB.
  assert (NA : heads_of false draws <> []).
  { intros H. apply heads_of_nil_iff in H. apply Exists_exists in EA.
    destruct EA as (d & Hin & Hd). rewrite Forall_forall in H.
    specialize (H d Hin). cbn in H. congruence. }
  assert (NB : heads_of true draws <> []).
  { intros H. apply heads_of_nil_iff in H. apply Exists_exists in EB.
    destruct EB as (d & Hin & Hd). rewrite Forall_forall in H.
    specialize (H d Hin). cbn in H. congruence. }
  split.
  - rewrite mle_of_generate, !div_total_some by assumption. reflexivity.
  - intros Hv.
    assert (HV : forall c, Forall (fun h => (0 <= h <= n)%Z) (heads_of c draws)).
    { intros c. unfold heads_of. apply Forall_forall. intros h Hh.
      apply in_map_iff in Hh. destruct Hh as (d & <- & Hd).
      apply filter_In in Hd. destruct Hd as [Hd _].
      rewrite Forall_forall in Hv. apply (Hv d Hd). }
    split; apply pooled_bounds; auto.
Qed.

Lemma mle_is_the_proportion_per_coin_witness :
  mle 10 (generate [(false, 9); (true, 4); (false, 8); (true, 3)]%Z)
  = Some (Np (Fin (pooled 10 (heads_of false [(false, 9); (true, 4); (false, 8); (true, 3)]%Z))),
          Np (Fin (pooled 10 (heads_of true [(false, 9); (true, 4); (false, 8); (true, 3)]%Z)))) /\
  show (Fin (pooled 10 (heads_of false [(false, 9); (true, 4); (false, 8); (true, 3)]%Z)))
  = Num (17 # 20) /\
  show (Fin (pooled 10 (heads_of true [(false, 9); (true, 4); (false, 8); (true, 3)]%Z)))
  = Num (7 # 20).
Proof.
  destruct (mle_is_the_proportion_per_coin 10
              [(false, 9); (true, 4); (false, 8); (true, 3)]%Z) as [E _].
  - lia.
  - apply Exists_cons_hd. reflexivity.
  - apply Exists_cons_tl, Exists_cons_hd. reflexivity.
  - split; [exact E|]. split; vm_compute; reflexivity.
Defined.

(** ** The whole cell *)






Example cell_runs :
  run_cell 10 [(false, 9); (false, 8)]%Z default_epsilon history_len default_pA0 default_pB0
  = CellRaised ZeroDivisionError /\
  run_cell 10 []%Z default_epsilon history_len default_pA0 default_pB0
  = CellRaised ZeroDivisionError /\
  run_cell 2 [(false, 2); (true, 0)]%Z PInf history_len default_pA0 default_pB0
  = CellRaised NameError /\
  run_cell 10 [(false, 5); (true, 5)]%Z (Fin (Qc_of (-1) 1)) history_len
           (Fin (Qc_of 1 2)) (Fin (Qc_of 1 2))
  = CellRaised (InLoop IndexError).
Proof. repeat split; vm_compute; reflexivity. Qed.

(** ** The E step shares out the counts *)






(** ** The order of the experiments *)

Lemma fold_fadd_acc (l : list float) (x y : float) :
  fold_left fadd l (fadd x y) = fadd x (fold_left fadd l y).
Proof.
  revert y. induction l as [|z l IH]; intros y; cbn [fold_left]; [reflexivity|].
  rewrite fadd_assoc. apply IH.
Qed.








(** ** Identical experiments *)







(** ** A bias of 1 *)


